(** * Verification of the wireway sizing calculator (src/app.py)

    A shallow embedding of the reference tables and of the three Dash
    callbacks [update_phase_specs], [update_ground_specs] and
    [calculate_all].  Python numbers are modelled as they are at run time:
    an [int] is a [Z], a [float] is an IEEE-754 binary64 value (the primitive
    [float] of Rocq), and [None] is a value of its own.  Python exceptions
    are the [Raise] branch of a small error monad. *)

From Stdlib Require Import ZArith QArith List String Ascii Bool Lia.
From Stdlib Require Import Qabs Floats.
Import ListNotations.
Open Scope string_scope.
Open Scope Z_scope.

#[local] Set Warnings "-inexact-float -register-all".

(** ** Python values and exceptions *)

(** The values a Dash [dbc.Input(type="number")] hands to a callback:
    JSON numbers arrive as [int] or [float], an empty field as [None]. *)
Inductive pyval :=
| PNone
| PInt (z : Z)
| PFloat (f : float).

Inductive exn :=
| TypeError
| ZeroDivisionError
| OverflowError.

Inductive outcome (A : Type) :=
| Ok (a : A)
| Raise (e : exn).
Arguments Ok {A} a.
Arguments Raise {A} e.

Definition bind {A B} (m : outcome A) (k : A -> outcome B) : outcome B :=
  match m with
  | Ok a => k a
  | Raise e => Raise e
  end.

Notation "x <- m ;; k" := (bind m (fun x => k))
  (at level 61, m at next level, right associativity).

(** Python truthiness: [None], [0] and [0.0]/[-0.0] are false; [nan] is true. *)
Definition truthy (v : pyval) : bool :=
  match v with
  | PNone => false
  | PInt z => negb (z =? 0)
  | PFloat f => negb (PrimFloat.eqb f 0%float)
  end.

(** [float(int)]: correctly rounded to nearest-even, [OverflowError] when
    the integer is beyond the float range. *)
Definition int_to_float (z : Z) : outcome float :=
  let f := SF2Prim (binary_normalize prec emax z 0 false) in
  if PrimFloat.is_infinity f then Raise OverflowError else Ok f.

(** [int / int] (CPython's [long_true_divide]): the correctly rounded
    quotient; a zero numerator gives a zero with the sign of the quotient;
    [OverflowError] when the quotient is beyond the float range. *)
Definition int_truediv (x y : Z) : outcome pyval :=
  if y =? 0 then Raise ZeroDivisionError
  else if x =? 0 then
    Ok (PFloat (if y <? 0 then (-0)%float else 0%float))
  else
    let sx := x <? 0 in
    let sy := y <? 0 in
    let q := SF2Prim (SFdiv prec emax
                        (S754_finite sx (Z.to_pos (Z.abs x)) 0)
                        (S754_finite sy (Z.to_pos (Z.abs y)) 0)) in
    if PrimFloat.is_infinity q then Raise OverflowError else Ok (PFloat q).

(** Binary operators of Python on [int]/[float]; a [None] operand raises
    [TypeError].  Mixed operands convert the [int] to [float] first. *)
Definition py_arith (iop : Z -> Z -> Z) (fop : float -> float -> float)
    (a b : pyval) : outcome pyval :=
  match a, b with
  | PInt x, PInt y => Ok (PInt (iop x y))
  | PFloat x, PFloat y => Ok (PFloat (fop x y))
  | PInt x, PFloat y => fx <- int_to_float x ;; Ok (PFloat (fop fx y))
  | PFloat x, PInt y => fy <- int_to_float y ;; Ok (PFloat (fop x fy))
  | _, _ => Raise TypeError
  end.

Definition py_mul := py_arith Z.mul PrimFloat.mul.
Definition py_add := py_arith Z.add PrimFloat.add.

(** [a / b]: true division; a zero divisor raises [ZeroDivisionError]. *)
Definition py_truediv (a b : pyval) : outcome pyval :=
  let fdiv x y :=
    if PrimFloat.eqb y 0%float then Raise ZeroDivisionError
    else Ok (PFloat (PrimFloat.div x y)) in
  match a, b with
  | PInt x, PInt y => int_truediv x y
  | PFloat x, PFloat y => fdiv x y
  | PInt x, PFloat y => fx <- int_to_float x ;; fdiv fx y
  | PFloat x, PInt y => fy <- int_to_float y ;; fdiv x fy
  | _, _ => Raise TypeError
  end.

(** [x ** 2] for a [float] [x]: C's [pow(x, 2.0)], the rounded square; a
    finite [x] whose square overflows raises [OverflowError] (errno ERANGE). *)
Definition py_pow2 (a : pyval) : outcome pyval :=
  match a with
  | PInt x => Ok (PInt (x * x))
  | PFloat x =>
      let r := PrimFloat.mul x x in
      if PrimFloat.is_infinity r && negb (PrimFloat.is_infinity x)
      then Raise OverflowError else Ok (PFloat r)
  | PNone => Raise TypeError
  end.

(** ** Exact values and Python's numeric comparisons *)

Inductive extended :=
| Fin (q : Q)
| PosInf
| NegInf
| NotANumber.

Definition pow2_Q (m : positive) (e : Z) : Q :=
  if 0 <=? e then (Zpos m * 2 ^ e) # 1 else Zpos m # Z.to_pos (2 ^ (- e)).

(** The exact value a [float] denotes. *)
Definition float_value (f : float) : extended :=
  match Prim2SF f with
  | S754_zero _ => Fin 0
  | S754_infinity s => if s then NegInf else PosInf
  | S754_nan => NotANumber
  | S754_finite s m e => Fin (if s then Qopp (pow2_Q m e) else pow2_Q m e)
  end.

Definition value (v : pyval) : option extended :=
  match v with
  | PNone => None
  | PInt z => Some (Fin (z # 1))
  | PFloat f => Some (float_value f)
  end.

(** Ordering of exact values; [None] when one side is a NaN. *)
Definition ext_compare (a b : extended) : option comparison :=
  match a, b with
  | NotANumber, _ | _, NotANumber => None
  | Fin x, Fin y => Some (Qcompare x y)
  | NegInf, NegInf | PosInf, PosInf => Some Eq
  | NegInf, _ | _, PosInf => Some Lt
  | PosInf, _ | _, NegInf => Some Gt
  end.

(** Python compares [int] and [float] by exact value (no rounding), and
    [float] with [float] as IEEE-754 does; [None] raises [TypeError]. *)
Definition py_compare (a b : pyval) : outcome (option comparison) :=
  match value a, value b with
  | Some x, Some y => Ok (ext_compare x y)
  | _, _ => Raise TypeError
  end.

Definition py_gt (a b : pyval) : outcome bool :=
  c <- py_compare a b ;;
  Ok (match c with Some Gt => true | _ => false end).

Definition py_le (a b : pyval) : outcome bool :=
  c <- py_compare a b ;;
  Ok (match c with Some Lt | Some Eq => true | _ => false end).

(** ** Text formatting: [str()] and the [:.Nf] format specification *)

Definition digit_char (d : Z) : ascii := ascii_of_nat (48 + Z.to_nat d).

Fixpoint digits_aux (fuel : nat) (n : Z) (acc : string) : string :=
  match fuel with
  | O => acc
  | S fuel' =>
      let acc' := String (digit_char (n mod 10)) acc in
      if n <? 10 then acc' else digits_aux fuel' (n / 10) acc'
  end.

(** Decimal digits of a non-negative integer. *)
Definition digits (n : Z) : string :=
  digits_aux (S (Z.to_nat (Z.log2 n))) n EmptyString.

(** [str(int)]. *)
Definition int_str (z : Z) : string :=
  if z <? 0 then append "-" (digits (- z)) else digits z.

Fixpoint zeros (n : nat) : string :=
  match n with O => EmptyString | S n' => String "0" (zeros n') end.

(** Nearest integer to [num/den] ([den > 0]), ties to even. *)
Definition round_half_even (num den : Z) : Z :=
  let '(k, r) := Z.div_eucl num den in
  match Z.compare (2 * r) den with
  | Lt => k
  | Gt => k + 1
  | Eq => if Z.even k then k else k + 1
  end.

(** The magnitude of a finite nonzero float as a fraction [num/den]. *)
Definition abs_fraction (m : positive) (e : Z) : Z * Z :=
  if 0 <=? e then (Zpos m * 2 ^ e, 1) else (Zpos m, 2 ^ (- e)).

Definition sign_str (s : bool) : string := if s then "-" else "".

(** [format(f, '.Nf')] for a float: the exact binary value rounded to [N]
    decimals, ties to even; the sign of a negative value (or of [-0.0]) is
    kept even when the digits round to zero. *)
Definition float_fixed (n : nat) (f : float) : string :=
  match Prim2SF f with
  | S754_nan => "nan"
  | S754_infinity s => append (sign_str s) "inf"
  | S754_zero s =>
      append (sign_str s)
        (match n with O => "0" | _ => append "0." (zeros n) end)
  | S754_finite s m e =>
      let '(num, den) := abs_fraction m e in
      let k := round_half_even (num * 10 ^ Z.of_nat n) den in
      let ds := digits k in
      let len := String.length ds in
      let ds := if (len <=? n)%nat then append (zeros (S n - len)) ds else ds in
      let len := String.length ds in
      let body :=
        match n with
        | O => ds
        | _ => append (substring 0 (len - n) ds)
                 (append "." (substring (len - n) n ds))
        end in
      append (sign_str s) body
  end.

(** [format(v, '.Nf')] for a Python value: an [int] is converted to float
    first, [None] has no such format ([TypeError]). *)
Definition py_format_fixed (n : nat) (v : pyval) : outcome string :=
  match v with
  | PNone => Raise TypeError
  | PInt z => f <- int_to_float z ;; Ok (float_fixed n f)
  | PFloat f => Ok (float_fixed n f)
  end.

(** [repr(float)] (CPython's [float_repr_style = 'short']): the shortest
    decimal digit string that reads back as the same float, written in
    positional notation when the decimal point position [decpt] satisfies
    [-4 < decpt <= 16] (with ".0" added to an integral value) and in
    exponent notation ["d.ddde+XX"] otherwise. *)

Definition pow10_le (E num den : Z) : bool :=
  if 0 <=? E then 10 ^ E * den <=? num else den <=? num * 10 ^ (- E).

(** The [E] with [10^E <= num/den < 10^(E+1)], for [num, den > 0]. *)
Definition dec_exponent (num den : Z) : Z :=
  let est := ((Z.log2 num - Z.log2 den) * 30103) / 100000 in
  match List.find (fun E => pow10_le E num den)
          [est + 2; est + 1; est; est - 1; est - 2] with
  | Some E => E
  | None => est - 2
  end.

Definition dec_value (d k : Z) : Q :=
  if 0 <=? k then (d * 10 ^ k) # 1 else d # Z.to_pos (10 ^ (- k)).

Definition Qabs_diff (x y : Q) : Q := Qabs (Qminus x y).

(** Shortest digits [(D, k)] with [D * 10^k] in the reading interval
    [[low, high]] (closed when the significand is even). *)
Fixpoint shortest (fuel : nat) (p : Z) (v low high : Q) (closed : bool)
    (num den : Z) : Z * Z :=
  let E := dec_exponent num den in
  let k := E - p + 1 in
  let d0 := if 0 <=? k then num / (den * 10 ^ k) else (num * 10 ^ (- k)) / den in
  let inside c :=
    let x := dec_value c k in
    if closed then Qle_bool low x && Qle_bool x high
    else negb (Qle_bool x low) && negb (Qle_bool high x) in
  let pick :=
    match inside d0, inside (d0 + 1) with
    | true, true =>
        match Qcompare (Qabs_diff (dec_value d0 k) v)
                       (Qabs_diff (dec_value (d0 + 1) k) v) with
        | Lt => Some d0
        | Gt => Some (d0 + 1)
        | Eq => Some (if Z.even d0 then d0 else d0 + 1)
        end
    | true, false => Some d0
    | false, true => Some (d0 + 1)
    | false, false => None
    end in
  match pick, fuel with
  | Some d, _ => (d, k)
  | None, O => (d0, k)
  | None, S fuel' => shortest fuel' (p + 1) v low high closed num den
  end.

Fixpoint strip_zeros (fuel : nat) (d k : Z) : Z * Z :=
  match fuel with
  | O => (d, k)
  | S fuel' =>
      if (d mod 10 =? 0) && negb (d =? 0) then strip_zeros fuel' (d / 10) (k + 1)
      else (d, k)
  end.

Definition Q_of_float (f : float) : Q :=
  match float_value f with Fin q => q | _ => 0 end.

Definition exp_str (x : Z) : string :=
  let a := digits (Z.abs x) in
  append (if x <? 0 then "-" else "+")
    (if (String.length a <? 2)%nat then append "0" a else a).

Definition float_repr (f : float) : string :=
  match Prim2SF f with
  | S754_nan => "nan"
  | S754_infinity s => append (sign_str s) "inf"
  | S754_zero s => append (sign_str s) "0.0"
  | S754_finite s m e =>
      let a := PrimFloat.abs f in
      let v := Q_of_float a in
      let below := Q_of_float (PrimFloat.next_down a) in
      let up := PrimFloat.next_up a in
      let above := if PrimFloat.is_infinity up then Qminus (Qmult 2 v) below
                   else Q_of_float up in
      let low := Qmult (Qplus v below) (1 # 2) in
      let high := Qmult (Qplus v above) (1 # 2) in
      let '(num, den) := abs_fraction m e in
      let '(d, k) := shortest 16 1 v low high (Z.even (Zpos m)) num den in
      let '(d, k) := strip_zeros 17 d k in
      let ds := digits d in
      let nd := Z.of_nat (String.length ds) in
      let decpt := nd + k in
      let body :=
        if (decpt <=? -4) || (16 <? decpt) then
          append (substring 0 1 ds)
            (append (if nd =? 1 then "" else append "." (substring 1 (Z.to_nat nd - 1) ds))
                    (append "e" (exp_str (decpt - 1))))
        else if decpt <=? 0 then
          append "0." (append (zeros (Z.to_nat (- decpt))) ds)
        else if nd <=? decpt then
          append ds (append (zeros (Z.to_nat (decpt - nd))) ".0")
        else
          append (substring 0 (Z.to_nat decpt) ds)
            (append "." (substring (Z.to_nat decpt) (Z.to_nat (nd - decpt)) ds)) in
      append (sign_str s) body
  end.

(** [str(v)] / [f"{v}"] of a Python value. *)
Definition py_str (v : pyval) : string :=
  match v with
  | PNone => "None"
  | PInt z => int_str z
  | PFloat f => float_repr f
  end.

(** ** Reference tables (app.py, lines 6-46) *)

(** A Python [dict] with string keys, in insertion order. *)
Definition dict (A : Type) := list (string * A).

Definition dict_get {A} (k : string) (d : dict A) : option A :=
  match List.find (fun p => String.eqb (fst p) k) d with
  | Some (_, v) => Some v
  | None => None
  end.

(** NEC Table 310.15(B)(16) (Copper). *)
Definition NEC_TABLE_COPPER : dict (dict Z) :=
  [ ("14", [("60", 15); ("75", 20); ("90", 25)]);
    ("12", [("60", 20); ("75", 25); ("90", 30)]);
    ("10", [("60", 30); ("75", 35); ("90", 40)]);
    ("8", [("60", 40); ("75", 50); ("90", 55)]);
    ("6", [("60", 55); ("75", 65); ("90", 75)]);
    ("4", [("60", 70); ("75", 85); ("90", 95)]);
    ("3", [("60", 85); ("75", 100); ("90", 115)]);
    ("2", [("60", 95); ("75", 115); ("90", 130)]);
    ("1", [("60", 110); ("75", 130); ("90", 145)]);
    ("1/0", [("60", 125); ("75", 150); ("90", 170)]);
    ("2/0", [("60", 145); ("75", 175); ("90", 195)]);
    ("3/0", [("60", 165); ("75", 200); ("90", 225)]);
    ("4/0", [("60", 195); ("75", 230); ("90", 260)]);
    ("250", [("60", 215); ("75", 255); ("90", 290)]);
    ("300", [("60", 240); ("75", 285); ("90", 320)]);
    ("350", [("60", 260); ("75", 310); ("90", 350)]);
    ("400", [("60", 280); ("75", 335); ("90", 380)]);
    ("500", [("60", 320); ("75", 380); ("90", 430)]);
    ("600", [("60", 350); ("75", 420); ("90", 475)]);
    ("700", [("60", 385); ("75", 460); ("90", 520)]);
    ("750", [("60", 400); ("75", 475); ("90", 535)]);
    ("800", [("60", 410); ("75", 490); ("90", 555)]);
    ("900", [("60", 435); ("75", 520); ("90", 585)]);
    ("1000", [("60", 455); ("75", 545); ("90", 615)]) ].

(** NEC Chapter 9 Table 5 (XHHW-2), approximate diameters. *)
Definition NEC_DIAMETERS_XHHW2 : dict float :=
  [ ("14", 0.133); ("12", 0.152); ("10", 0.176); ("8", 0.236);
    ("6", 0.274); ("4", 0.322); ("3", 0.350); ("2", 0.382); ("1", 0.442);
    ("1/0", 0.482); ("2/0", 0.528); ("3/0", 0.580); ("4/0", 0.637);
    ("250", 0.711); ("300", 0.766); ("350", 0.817); ("400", 0.864);
    ("500", 0.949); ("600", 1.051); ("700", 1.121); ("750", 1.156);
    ("800", 1.191); ("900", 1.251); ("1000", 1.317) ]%float.

Definition WIRE_SIZES : list string := map fst NEC_TABLE_COPPER.
Definition TEMP_RATINGS : list string := ["60"; "75"; "90"].

(** ** Callbacks 1 and 2: lookup-driven defaulting (lines 205-241) *)

(** A [dbc.Select] value: the chosen option's string, or [None]. *)
Definition selection := option string.

(** [size in NEC_TABLE_COPPER and temp in NEC_TABLE_COPPER[size]], and then
    [NEC_TABLE_COPPER[size][temp]]. *)
Definition copper_lookup (size temp : selection) : option Z :=
  match size, temp with
  | Some s, Some t =>
      match dict_get s NEC_TABLE_COPPER with
      | Some row => dict_get t row
      | None => None
      end
  | _, _ => None
  end.

(** [size in NEC_DIAMETERS_XHHW2], and then [NEC_DIAMETERS_XHHW2[size]]. *)
Definition diameter_lookup (size : selection) : option float :=
  match size with
  | Some s => dict_get s NEC_DIAMETERS_XHHW2
  | None => None
  end.

(** [triggered] is [dash.callback_context.triggered] being non-empty. *)
Definition update_phase_specs (triggered : bool) (size temp : selection)
    (current_amp current_diam : pyval) : pyval * pyval :=
  if negb triggered then (current_amp, current_diam)
  else
    let new_amp :=
      match copper_lookup size temp with
      | Some a => PInt a
      | None => current_amp
      end in
    let new_diam :=
      match diameter_lookup size with
      | Some d => PFloat d
      | None => current_diam
      end in
    (new_amp, new_diam).

Definition update_ground_specs (size : selection) (current_diam : pyval) : pyval :=
  match diameter_lookup size with
  | Some d => PFloat d
  | None => current_diam
  end.

(** ** Callback 3: [calculate_all] (lines 244-340) *)

(** The ten [Input] values of the callback, in the order of its parameters. *)
Record SizingInput := mkSizingInput {
  fla : pyval;
  ocpd : pyval;
  parallel : pyval;
  num_wireways : pyval;
  temp_corr : pyval;
  base_ampacity : pyval;
  phase_diam : pyval;
  ground_diam : pyval;
  ground_qty : pyval;
  wireway_area : pyval
}.

(** The twelve [Output]s the callback declares (component id, property). *)
Definition calculate_all_outputs : list (string * string) :=
  [ ("result-ampacity-display", "children");
    ("result-ampacity-display", "className");
    ("result-ampacity-calc-text", "children");
    ("card-ampacity-result", "className");
    ("display-phase-area", "children");
    ("display-ground-area", "children");
    ("display-total-fill", "children");
    ("result-fill-display", "children");
    ("result-fill-display", "className");
    ("card-fill-result", "className");
    ("ampacity-status-col", "children");
    ("fill-status-col", "children") ].

(** The Dash components the callback builds ([html.H5], [html.P],
    [dbc.Alert]) and the values it returns for its outputs. *)
Inductive component :=
| H5 (children : string) (className : string)
| Pg (children : string)
| Alert (children : list component) (color : string).

Inductive outval :=
| OStr (s : string)
| OComp (c : component).

(** [math.pi]. *)
Definition math_pi : float := 0x1.921fb54442d18p+1%float.

(** [all([...])] over the guarded inputs (line 280). *)
Definition inputs_present (i : SizingInput) : bool :=
  forallb truthy
    [fla i; ocpd i; parallel i; num_wireways i; base_ampacity i;
     phase_diam i; ground_diam i; wireway_area i].

(** [["---"] * 11] (line 281). *)
Definition undetermined : list outval := repeat (OStr "---") 11.

(** The locals of the "Calculations" block (lines 283-299). *)
Record SizingResult := mkSizingResult {
  calculated_ampacity : pyval;
  is_ampacity_safe : bool;
  conductors_in_raceway : pyval;
  phase_area : pyval;
  ground_area : pyval;
  total_phase_area : pyval;
  total_ground_area : pyval;
  total_fill_area : pyval;
  fill_percentage : pyval;
  is_fill_safe : bool
}.

(** [math.pi * ((d/2)**2)]. *)
Definition circle_area (d : pyval) : outcome pyval :=
  h <- py_truediv d (PInt 2) ;;
  sq <- py_pow2 h ;;
  py_mul (PFloat math_pi) sq.

Definition calculations (i : SizingInput) : outcome SizingResult :=
  (* 1. Ampacity *)
  ba_par <- py_mul (base_ampacity i) (parallel i) ;;
  ca <- py_mul ba_par (temp_corr i) ;;
  amp_safe <- py_gt ca (ocpd i) ;;
  (* 2. Fill *)
  per_way <- py_truediv (parallel i) (num_wireways i) ;;
  cir <- py_mul per_way (PInt 3) ;;
  pa <- circle_area (phase_diam i) ;;
  ga <- circle_area (ground_diam i) ;;
  tpa <- py_mul cir pa ;;
  tga <- py_mul (ground_qty i) ga ;;
  tfa <- py_add tpa tga ;;
  ratio <- py_truediv tfa (wireway_area i) ;;
  fp <- py_mul ratio (PInt 100) ;;
  fill_safe <- py_le fp (PInt 20) ;;
  Ok (mkSizingResult ca amp_safe cir pa ga tpa tga tfa fp fill_safe).

Definition border_classes := "border-top-0 border-end-0 border-bottom-0 border-start-4 ".

(** The "UI Formatting" block and the returned tuple (lines 301-340). *)
Definition ui_formatting (i : SizingInput) (r : SizingResult) : outcome (list outval) :=
  let amp_safe := is_ampacity_safe r in
  let fill_safe := is_fill_safe r in
  let amp_color_class := if amp_safe then "text-success" else "text-danger" in
  let amp_card_class :=
    "mb-4 shadow-sm " ++ border_classes
      ++ (if amp_safe then "border-success" else "border-danger") in
  let amp_calc_text :=
    "Base (" ++ py_str (base_ampacity i) ++ "A) × Parallel ("
      ++ py_str (parallel i) ++ ") × Corr (" ++ py_str (temp_corr i) ++ ")" in
  let fill_color_class := if fill_safe then "text-success" else "text-danger" in
  let fill_card_class :=
    "shadow-sm " ++ border_classes
      ++ (if fill_safe then "border-success" else "border-danger") in
  amp_text <- py_format_fixed 1 (calculated_ampacity r) ;;
  let amp_banner :=
    Alert [H5 (if amp_safe then "Ampacity Check: PASS" else "Ampacity Check: FAIL")
              "alert-heading";
           Pg ("Calculated (" ++ amp_text ++ " A) > OCPD (" ++ py_str (ocpd i) ++ " A)")]
          (if amp_safe then "success" else "danger") in
  fill_text <- py_format_fixed 1 (fill_percentage r) ;;
  let fill_banner :=
    Alert [H5 (if fill_safe then "Wireway Fill: PASS" else "Wireway Fill: FAIL")
              "alert-heading";
           Pg ("Fill (" ++ fill_text ++ "%) is "
                 ++ (if fill_safe then "within" else "exceeds") ++ " 20% limit")]
          (if fill_safe then "success" else "danger") in
  amp_display <- py_format_fixed 1 (calculated_ampacity r) ;;
  tpa_text <- py_format_fixed 2 (total_phase_area r) ;;
  tga_text <- py_format_fixed 2 (total_ground_area r) ;;
  tfa_text <- py_format_fixed 2 (total_fill_area r) ;;
  fp_text <- py_format_fixed 1 (fill_percentage r) ;;
  Ok [ OStr (amp_display ++ " A");
       OStr ("display-4 fw-bold text-center my-3 " ++ amp_color_class);
       OStr amp_calc_text;
       OStr amp_card_class;
       OStr (tpa_text ++ " in²");
       OStr (tga_text ++ " in²");
       OStr (tfa_text ++ " in²");
       OStr (fp_text ++ "%");
       OStr ("display-4 fw-bold text-center my-2 " ++ fill_color_class);
       OStr fill_card_class;
       OComp amp_banner;
       OComp fill_banner ].

Definition calculate_all (i : SizingInput) : outcome (list outval) :=
  if negb (inputs_present i) then Ok undetermined
  else
    r <- calculations i ;;
    ui_formatting i r.

(** The default values of the layout's input fields (lines 97-169). *)
Definition default_input : SizingInput :=
  mkSizingInput (PFloat 2886.8) (PInt 3000) (PInt 6) (PInt 2) (PFloat 0.96)
    (PInt 535) (PFloat 1.156) (PFloat 0.949) (PInt 1) (PFloat 56.27).

(** All ten inputs present and non-zero (the spec's "valid" snapshot). *)
Definition valid_input (i : SizingInput) : bool :=
  forallb truthy
    [fla i; ocpd i; parallel i; num_wireways i; temp_corr i; base_ampacity i;
     phase_diam i; ground_diam i; ground_qty i; wireway_area i].

Definition with_fla (i : SizingInput) (v : pyval) : SizingInput :=
  mkSizingInput v (ocpd i) (parallel i) (num_wireways i) (temp_corr i)
    (base_ampacity i) (phase_diam i) (ground_diam i) (ground_qty i) (wireway_area i).

Definition with_temp_corr (i : SizingInput) (v : pyval) : SizingInput :=
  mkSizingInput (fla i) (ocpd i) (parallel i) (num_wireways i) v
    (base_ampacity i) (phase_diam i) (ground_diam i) (ground_qty i) (wireway_area i).

Definition with_ground_qty (i : SizingInput) (v : pyval) : SizingInput :=
  mkSizingInput (fla i) (ocpd i) (parallel i) (num_wireways i) (temp_corr i)
    (base_ampacity i) (phase_diam i) (ground_diam i) v (wireway_area i).

Definition is_float (v : pyval) : bool :=
  match v with PFloat _ => true | _ => false end.

(** The result of the "Calculations" block on the layout's default inputs. *)
Definition default_result : SizingResult :=
  Eval vm_compute in
  match calculations default_input with
  | Ok r => r
  | Raise _ => mkSizingResult PNone false PNone PNone PNone PNone PNone PNone PNone false
  end.

Definition with_ocpd (i : SizingInput) (v : pyval) : SizingInput :=
  mkSizingInput (fla i) v (parallel i) (num_wireways i) (temp_corr i)
    (base_ampacity i) (phase_diam i) (ground_diam i) (ground_qty i) (wireway_area i).

(** Size [s1] is before [s2] in the tables: at temperature [t] its ampacity
    and its diameter are both strictly smaller. *)
Definition size_order_ok (s1 s2 t : string) : bool :=
  match copper_lookup (Some s1) (Some t), copper_lookup (Some s2) (Some t),
        diameter_lookup (Some s1), diameter_lookup (Some s2) with
  | Some a1, Some a2, Some d1, Some d2 =>
      (a1 <? a2) &&
      match ext_compare (float_value d1) (float_value d2) with
      | Some Lt => true
      | _ => false
      end
  | _, _, _, _ => false
  end.

Definition tables_sorted_check : bool :=
  let n_sizes := List.length WIRE_SIZES in
  forallb (fun n => forallb (fun m => forallb (fun t =>
    implb (Nat.ltb n m)
      match nth_error WIRE_SIZES n, nth_error WIRE_SIZES m with
      | Some s1, Some s2 => size_order_ok s1 s2 t
      | _, _ => true
      end) TEMP_RATINGS) (seq 0 n_sizes)) (seq 0 n_sizes).

(** The result of the "Calculations" block, and the callback's outputs,
    on a given snapshot (a default when the code raises). *)
Definition result_of (i : SizingInput) : SizingResult :=
  match calculations i with Ok r => r | Raise _ => default_result end.

Definition outputs_of (i : SizingInput) : list outval :=
  match calculate_all i with Ok out => out | Raise _ => [] end.

(** ** Facts about the model *)

Lemma bind_Ok {A B} (m : outcome A) (k : A -> outcome B) (b : B) :
  bind m k = Ok b -> exists a, m = Ok a /\ k a = Ok b.
Proof. destruct m as [a|e]; simpl; [eauto | discriminate]. Qed.

Ltac unbind H :=
  repeat match type of H with
  | bind _ _ = Ok _ =>
      let a := fresh "v" in
      let Ha := fresh "Hv" in
      apply bind_Ok in H; destruct H as [a [Ha H]]
  end.

(** Every step of the "Calculations" block, read back from a successful run. *)
Lemma calculations_Ok (i : SizingInput) (r : SizingResult) :
  calculations i = Ok r ->
  (exists ba_par, py_mul (base_ampacity i) (parallel i) = Ok ba_par /\
     py_mul ba_par (temp_corr i) = Ok (calculated_ampacity r)) /\
  py_gt (calculated_ampacity r) (ocpd i) = Ok (is_ampacity_safe r) /\
  (exists per_way, py_truediv (parallel i) (num_wireways i) = Ok per_way /\
     py_mul per_way (PInt 3) = Ok (conductors_in_raceway r)) /\
  circle_area (phase_diam i) = Ok (phase_area r) /\
  circle_area (ground_diam i) = Ok (ground_area r) /\
  py_mul (conductors_in_raceway r) (phase_area r) = Ok (total_phase_area r) /\
  py_mul (ground_qty i) (ground_area r) = Ok (total_ground_area r) /\
  py_add (total_phase_area r) (total_ground_area r) = Ok (total_fill_area r) /\
  (exists ratio, py_truediv (total_fill_area r) (wireway_area i) = Ok ratio /\
     py_mul ratio (PInt 100) = Ok (fill_percentage r)) /\
  py_le (fill_percentage r) (PInt 20) = Ok (is_fill_safe r).
Proof.
  intro H. unfold calculations in H. unbind H.
  injection H as <-. simpl.
  repeat split; eauto.
Qed.

Lemma valid_inputs_present (i : SizingInput) :
  valid_input i = true -> inputs_present i = true.
Proof.
  unfold valid_input, inputs_present. simpl.
  intro H. repeat rewrite andb_true_iff in *. tauto.
Qed.

Lemma calculate_all_valid (i : SizingInput) :
  valid_input i = true ->
  calculate_all i = (r <- calculations i ;; ui_formatting i r).
Proof.
  intro H. unfold calculate_all. now rewrite (valid_inputs_present i H).
Qed.

Lemma py_gt_Ok (a b : pyval) (c : bool) :
  py_gt a b = Ok c -> (c = true <-> py_compare a b = Ok (Some Gt)).
Proof.
  unfold py_gt. intro H. unbind H. rewrite Hv.
  injection H as <-.
  destruct v as [[| |]|]; split; congruence.
Qed.

Lemma py_le_Ok (a b : pyval) (c : bool) :
  py_le a b = Ok c ->
  (c = true <-> py_compare a b = Ok (Some Lt) \/ py_compare a b = Ok (Some Eq)).
Proof.
  unfold py_le. intro H. unbind H. rewrite Hv.
  injection H as <-.
  destruct v as [[| |]|]; split; intuition congruence.
Qed.

Lemma truediv_float (a b v : pyval) :
  py_truediv a b = Ok v -> is_float v = true.
Proof.
  unfold py_truediv, int_truediv.
  destruct a as [|x|x], b as [|y|y]; simpl; try discriminate.
  - destruct (y =? 0); [discriminate|].
    destruct (x =? 0); [intro H; injection H as <-; reflexivity|].
    match goal with |- context [if ?c then _ else _] => destruct c end;
      [discriminate | intro H; injection H as <-; reflexivity].
  - destruct (int_to_float x); simpl; [|discriminate].
    destruct (PrimFloat.eqb y 0); [discriminate | intro H; injection H as <-; reflexivity].
  - destruct (int_to_float y); simpl; [|discriminate].
    destruct (PrimFloat.eqb a 0); [discriminate | intro H; injection H as <-; reflexivity].
  - destruct (PrimFloat.eqb y 0); [discriminate | intro H; injection H as <-; reflexivity].
Qed.

Lemma arith_float_l iop fop (a b v : pyval) :
  is_float a = true -> py_arith iop fop a b = Ok v -> is_float v = true.
Proof.
  destruct a as [|x|x], b as [|y|y]; simpl; try discriminate.
  - intros _ H. destruct (int_to_float y); simpl in H; [|discriminate].
    injection H as <-. reflexivity.
  - intros _ H. injection H as <-. reflexivity.
Qed.

Lemma arith_float_r iop fop (a b v : pyval) :
  is_float b = true -> py_arith iop fop a b = Ok v -> is_float v = true.
Proof.
  destruct a as [|x|x], b as [|y|y]; simpl; try discriminate.
  - intros _ H. destruct (int_to_float x); simpl in H; [|discriminate].
    injection H as <-. reflexivity.
  - intros _ H. injection H as <-. reflexivity.
Qed.

Lemma circle_area_float (d v : pyval) :
  circle_area d = Ok v -> is_float v = true.
Proof.
  unfold circle_area. intro H. unbind H.
  exact (arith_float_l Z.mul PrimFloat.mul (PFloat math_pi) v1 v eq_refl H).
Qed.

(** The areas and the percentage are always Python floats. *)
Lemma calculations_floats (i : SizingInput) (r : SizingResult) :
  calculations i = Ok r ->
  is_float (conductors_in_raceway r) = true /\
  is_float (total_phase_area r) = true /\
  is_float (total_ground_area r) = true /\
  is_float (total_fill_area r) = true /\
  is_float (fill_percentage r) = true.
Proof.
  intro Hc.
  destruct (calculations_Ok i r Hc)
    as [_ [_ [[w [Hw Hcir]] [Hpa [Hga [Htp [Htg [Htf [[q [Hq Hfp]] _]]]]]]]]].
  assert (Fcir : is_float (conductors_in_raceway r) = true)
    by exact (arith_float_l _ _ _ _ _ (truediv_float _ _ _ Hw) Hcir).
  assert (Ftp : is_float (total_phase_area r) = true)
    by exact (arith_float_l _ _ _ _ _ Fcir Htp).
  assert (Ftg : is_float (total_ground_area r) = true)
    by exact (arith_float_r _ _ _ _ _ (circle_area_float _ _ Hga) Htg).
  assert (Ftf : is_float (total_fill_area r) = true)
    by exact (arith_float_l _ _ _ _ _ Ftp Htf).
  assert (Ffp : is_float (fill_percentage r) = true)
    by exact (arith_float_l _ _ _ _ _ (truediv_float _ _ _ Hq) Hfp).
  auto.
Qed.

Lemma format_float_Ok (n : nat) (v : pyval) :
  is_float v = true -> py_format_fixed n v = Ok (match v with PFloat f => float_fixed n f | _ => "" end).
Proof. destruct v; simpl; congruence. Qed.

(** When the ampacity is a float, the formatting block cannot fail, and its
    first output is the ampacity to one decimal followed by " A". *)
Lemma ui_formatting_head (i : SizingInput) (r : SizingResult) (f : float) :
  calculated_ampacity r = PFloat f ->
  is_float (total_phase_area r) = true ->
  is_float (total_ground_area r) = true ->
  is_float (total_fill_area r) = true ->
  is_float (fill_percentage r) = true ->
  exists out, ui_formatting i r = Ok out /\
    hd_error out = Some (OStr (float_fixed 1 f ++ " A")).
Proof.
  intros Hca F1 F2 F3 F4.
  unfold ui_formatting. rewrite Hca.
  rewrite (format_float_Ok 1 _ F4), (format_float_Ok 2 _ F1),
    (format_float_Ok 2 _ F2), (format_float_Ok 2 _ F3).
  simpl. eexists. split; reflexivity.
Qed.

(** ** Claims *)

(** C1 (the guard of [calculate_all]).  The claim: a null or zero value in
    any of the ten fields yields the placeholder dash in every display
    output.  The guard
    of line 280 does not test [temp_corr] nor [ground_qty]: with
    [temp_corr = 0.0] (the other fields at the layout defaults) the callback
    computes numeric outputs, with [temp_corr] or [ground_qty] empty it
    raises [TypeError], with [ground_qty = 0] it computes numeric outputs;
    and the placeholder list has 11 entries for the 12 declared outputs. *)
Theorem calculate_all_guard_gaps :
  truthy (PFloat 0) = false /\
  calculate_all (with_temp_corr default_input (PFloat 0)) <> Ok undetermined /\
  calculate_all (with_temp_corr default_input PNone) = Raise TypeError /\
  calculate_all (with_ground_qty default_input (PInt 0)) <> Ok undetermined /\
  calculate_all (with_ground_qty default_input PNone) = Raise TypeError /\
  List.length undetermined = 11%nat /\
  List.length calculate_all_outputs = 12%nat.
Proof.
  repeat split; try reflexivity;
    vm_compute; discriminate.
Qed.

(** C2: for a valid snapshot, [calculated_ampacity] is the Python product
    [base_ampacity * parallel * temp_corr]; with [535], [6] and [0.96] it is
    the float 3081.6, displayed as "3081.6 A". *)
Theorem calculated_ampacity_product (i : SizingInput) (r : SizingResult) :
  valid_input i = true ->
  calculations i = Ok r ->
  (ba_par <- py_mul (base_ampacity i) (parallel i) ;; py_mul ba_par (temp_corr i))
    = Ok (calculated_ampacity r) /\
  (base_ampacity i = PInt 535 -> parallel i = PInt 6 -> temp_corr i = PFloat 0.96 ->
   calculated_ampacity r = PFloat 3081.6 /\
   exists out, calculate_all i = Ok out /\ hd_error out = Some (OStr "3081.6 A")).
Proof.
  intros Hv Hc.
  destruct (calculations_Ok i r Hc) as [[ba_par [H1 H2]] _].
  split.
  - rewrite H1. exact H2.
  - intros Hb Hp Ht.
    rewrite Hb, Hp in H1. vm_compute in H1. injection H1 as <-.
    assert (E : py_mul (PInt 3210) (PFloat 0.96) = Ok (PFloat 3081.6))
      by (vm_compute; reflexivity).
    rewrite Ht, E in H2. injection H2 as H2.
    assert (Hca : calculated_ampacity r = PFloat 3081.6) by (symmetry; exact H2).
    split; [exact Hca|].
    destruct (calculations_floats i r Hc) as [_ [F1 [F2 [F3 F4]]]].
    destruct (ui_formatting_head i r _ Hca F1 F2 F3 F4) as [out [Hu Hh]].
    exists out. split.
    + rewrite (calculate_all_valid i Hv), Hc. exact Hu.
    + rewrite Hh. reflexivity.
Qed.

(** C3: for a valid snapshot, the ampacity check passes exactly when the
    calculated ampacity is strictly greater than the OCPD setting, compared
    by exact value; equal values fail. *)
Theorem ampacity_pass_strict (i : SizingInput) (r : SizingResult) :
  valid_input i = true ->
  calculations i = Ok r ->
  (is_ampacity_safe r = true <->
     py_compare (calculated_ampacity r) (ocpd i) = Ok (Some Gt)) /\
  (forall x y, value (calculated_ampacity r) = Some (Fin x) ->
     value (ocpd i) = Some (Fin y) ->
     (is_ampacity_safe r = true <-> (y < x)%Q) /\
     ((x == y)%Q -> is_ampacity_safe r = false)).
Proof.
  intros _ Hc.
  destruct (calculations_Ok i r Hc) as [_ [Hgt _]].
  pose proof (py_gt_Ok _ _ _ Hgt) as Hiff.
  split; [exact Hiff|].
  intros x y Hx Hy.
  assert (Hcmp : py_compare (calculated_ampacity r) (ocpd i) = Ok (Some (Qcompare x y)))
    by (unfold py_compare; rewrite Hx, Hy; reflexivity).
  rewrite Hcmp in Hiff.
  split.
  - rewrite Hiff, Qgt_alt. split; [congruence | intro E; rewrite E; reflexivity].
  - intro E. apply Qeq_alt in E.
    destruct (is_ampacity_safe r) eqn:Hs; [|reflexivity].
    rewrite E in Hiff. destruct Hiff as [Hl _].
    specialize (Hl eq_refl). discriminate.
Qed.

(** C4: for a valid snapshot, the total fill area is
    [conductors_in_raceway * (math.pi * ((phase_diam/2)**2))] plus
    [ground_qty * (math.pi * ((ground_diam/2)**2))], the fill percentage is
    [(total_fill_area / wireway_area) * 100], and the fill check passes
    exactly when the percentage is at most 20, 20 included. *)
Theorem fill_computation (i : SizingInput) (r : SizingResult) :
  valid_input i = true ->
  calculations i = Ok r ->
  (pa <- circle_area (phase_diam i) ;;
   ga <- circle_area (ground_diam i) ;;
   tpa <- py_mul (conductors_in_raceway r) pa ;;
   tga <- py_mul (ground_qty i) ga ;;
   py_add tpa tga) = Ok (total_fill_area r) /\
  (q <- py_truediv (total_fill_area r) (wireway_area i) ;; py_mul q (PInt 100))
    = Ok (fill_percentage r) /\
  (is_fill_safe r = true <->
     py_compare (fill_percentage r) (PInt 20) = Ok (Some Lt) \/
     py_compare (fill_percentage r) (PInt 20) = Ok (Some Eq)) /\
  (forall x, value (fill_percentage r) = Some (Fin x) ->
     (is_fill_safe r = true <-> (x <= 20)%Q)).
Proof.
  intros _ Hc.
  destruct (calculations_Ok i r Hc)
    as [_ [_ [_ [Hpa [Hga [Htp [Htg [Htf [[q [Hq Hfp]] Hle]]]]]]]]].
  pose proof (py_le_Ok _ _ _ Hle) as Hiff.
  split; [rewrite Hpa, Hga; simpl; rewrite Htp; simpl; rewrite Htg; exact Htf|].
  split; [rewrite Hq; exact Hfp|].
  split; [exact Hiff|].
  intros x Hx.
  assert (Hcmp : py_compare (fill_percentage r) (PInt 20) = Ok (Some (Qcompare x (20 # 1))))
    by (unfold py_compare; rewrite Hx; reflexivity).
  rewrite Hcmp in Hiff. rewrite Hiff, Qle_alt.
  destruct (Qcompare x (20 # 1)); intuition congruence.
Qed.

(** C5: for a valid snapshot, [conductors_in_raceway] is
    [(parallel / num_wireways) * 3], used as is (no rounding) for the phase
    area; 5 parallel sets in 2 wireways give 7.5 conductors. *)
Theorem conductors_fractional (i : SizingInput) (r : SizingResult) :
  valid_input i = true ->
  calculations i = Ok r ->
  (q <- py_truediv (parallel i) (num_wireways i) ;; py_mul q (PInt 3))
    = Ok (conductors_in_raceway r) /\
  py_mul (conductors_in_raceway r) (phase_area r) = Ok (total_phase_area r) /\
  (parallel i = PInt 5 -> num_wireways i = PInt 2 ->
   conductors_in_raceway r = PFloat 7.5).
Proof.
  intros _ Hc.
  destruct (calculations_Ok i r Hc) as [_ [_ [[w [Hw Hcir]] [_ [_ [Htp _]]]]]].
  split; [rewrite Hw; exact Hcir|].
  split; [exact Htp|].
  intros Hp Hn. rewrite Hp, Hn in Hw. vm_compute in Hw. injection Hw as <-.
  assert (E : py_mul (PFloat 2.5) (PInt 3) = Ok (PFloat 7.5)) by (vm_compute; reflexivity).
  rewrite E in Hcir. injection Hcir as Hcir. symmetry. exact Hcir.
Qed.

(** C6: the tables hold the values of the code: 535 A for size "750" at
    90 degrees C, 0.949 in for size "500". *)
Theorem reference_table_values :
  copper_lookup (Some "750") (Some "90") = Some 535 /\
  diameter_lookup (Some "500") = Some 0.949%float.
Proof. split; reflexivity. Qed.

(** C7: a size or temperature missing from a table leaves the current value
    of the field it would set unchanged: the ampacity when the copper lookup
    misses, the phase and ground diameters when the diameter lookup misses. *)
Theorem lookup_miss_keeps_prior (triggered : bool) (size temp : selection)
    (current_amp current_diam : pyval) :
  (copper_lookup size temp = None ->
   fst (update_phase_specs triggered size temp current_amp current_diam) = current_amp) /\
  (diameter_lookup size = None ->
   snd (update_phase_specs triggered size temp current_amp current_diam) = current_diam /\
   update_ground_specs size current_diam = current_diam).
Proof.
  unfold update_phase_specs, update_ground_specs.
  split; intro H; destruct triggered; simpl; rewrite ?H; auto.
Qed.

(** C8: [calculate_all] is a function of its ten inputs only: snapshots
    with the same ten values give the same result. *)
Theorem calculate_all_deterministic (i j : SizingInput) :
  fla i = fla j -> ocpd i = ocpd j -> parallel i = parallel j ->
  num_wireways i = num_wireways j -> temp_corr i = temp_corr j ->
  base_ampacity i = base_ampacity j -> phase_diam i = phase_diam j ->
  ground_diam i = ground_diam j -> ground_qty i = ground_qty j ->
  wireway_area i = wireway_area j ->
  calculate_all i = calculate_all j.
Proof.
  destruct i, j; simpl; intros; subst; reflexivity.
Qed.

(** C9: among valid snapshots, [fla] does not change the result: it only
    takes part in the guard. *)
Theorem fla_irrelevant (i : SizingInput) (f1 f2 : pyval) :
  valid_input (with_fla i f1) = true ->
  valid_input (with_fla i f2) = true ->
  calculate_all (with_fla i f1) = calculate_all (with_fla i f2).
Proof.
  intros H1 H2.
  rewrite (calculate_all_valid _ H1), (calculate_all_valid _ H2).
  reflexivity.
Qed.

(** C10: every size offered by the dropdowns ([WIRE_SIZES]) with every
    temperature ([TEMP_RATINGS]) is found in both tables, so
    [update_phase_specs] sets both fields from the tables. *)
Theorem dropdown_lookups_succeed (s t : string) (current_amp current_diam : pyval) :
  In s WIRE_SIZES -> In t TEMP_RATINGS ->
  exists a d,
    copper_lookup (Some s) (Some t) = Some a /\
    diameter_lookup (Some s) = Some d /\
    update_phase_specs true (Some s) (Some t) current_amp current_diam = (PInt a, PFloat d).
Proof.
  intros Hs Ht. simpl in Hs, Ht.
  repeat (destruct Hs as [<- | Hs]); [.. | contradiction];
    repeat (destruct Ht as [<- | Ht]); try contradiction;
    do 2 eexists; repeat split.
Qed.

(** ** Witnesses: the theorems above at the layout's default inputs *)

Lemma calculated_ampacity_product_witness :
  valid_input default_input = true /\
  calculated_ampacity default_result = PFloat 3081.6.
Proof.
  split; [reflexivity|].
  exact (proj1 (proj2 (calculated_ampacity_product default_input default_result
                         eq_refl ltac:(vm_compute; reflexivity))
                  eq_refl eq_refl eq_refl)).
Defined.

Lemma ampacity_pass_strict_witness :
  is_ampacity_safe default_result = true /\
  py_compare (calculated_ampacity default_result) (ocpd default_input) = Ok (Some Gt).
Proof.
  split; [reflexivity|].
  apply (proj1 (proj1 (ampacity_pass_strict default_input default_result
                         ltac:(vm_compute; reflexivity) ltac:(vm_compute; reflexivity)))).
  reflexivity.
Defined.

Lemma fill_computation_witness :
  is_fill_safe default_result = true /\
  py_compare (fill_percentage default_result) (PInt 20) = Ok (Some Lt).
Proof.
  split; [reflexivity|].
  destruct (proj1 (proj1 (proj2 (proj2 (fill_computation default_input default_result
                ltac:(vm_compute; reflexivity) ltac:(vm_compute; reflexivity)))))
              eq_refl) as [H | H].
  - exact H.
  - vm_compute in H. discriminate.
Defined.

Lemma conductors_fractional_witness :
  conductors_in_raceway default_result = PFloat 9 /\
  py_mul (conductors_in_raceway default_result) (phase_area default_result)
    = Ok (total_phase_area default_result).
Proof.
  split; [reflexivity|].
  exact (proj1 (proj2 (conductors_fractional default_input default_result
                         ltac:(vm_compute; reflexivity) ltac:(vm_compute; reflexivity)))).
Defined.

Lemma lookup_miss_keeps_prior_witness :
  copper_lookup (Some "2000") (Some "90") = None /\
  fst (update_phase_specs true (Some "2000") (Some "90") (PInt 400) (PFloat 1.5)) = PInt 400 /\
  update_ground_specs (Some "2000") (PFloat 1.5) = PFloat 1.5.
Proof.
  split; [reflexivity|].
  split.
  - exact (proj1 (lookup_miss_keeps_prior true (Some "2000") (Some "90") (PInt 400) (PFloat 1.5))
            eq_refl).
  - exact (proj2 (proj2 (lookup_miss_keeps_prior true (Some "2000") (Some "90") (PInt 400) (PFloat 1.5))
            eq_refl)).
Defined.

Lemma calculate_all_deterministic_witness :
  calculate_all default_input = calculate_all default_input.
Proof.
  apply (calculate_all_deterministic default_input default_input); reflexivity.
Defined.

Lemma fla_irrelevant_witness :
  calculate_all (with_fla default_input (PInt 1))
  = calculate_all (with_fla default_input (PFloat 2886.8)).
Proof.
  apply fla_irrelevant; vm_compute; reflexivity.
Defined.

Lemma dropdown_lookups_succeed_witness :
  exists a d,
    copper_lookup (Some "750") (Some "90") = Some a /\
    diameter_lookup (Some "750") = Some d /\
    update_phase_specs true (Some "750") (Some "90") (PInt 0) (PFloat 0) = (PInt a, PFloat d).
Proof.
  apply dropdown_lookups_succeed; simpl; tauto.
Defined.

(** ** Further properties of the tables and callbacks *)

(** The diameter table has exactly the sizes of the copper table, in the
    same order and without repetition, and every copper row has exactly the
    three temperature ratings. *)
Theorem table_keys_agree :
  map fst NEC_DIAMETERS_XHHW2 = WIRE_SIZES /\
  NoDup WIRE_SIZES /\
  Forall (fun row => map fst (snd row) = TEMP_RATINGS) NEC_TABLE_COPPER.
Proof.
  split; [reflexivity|]. split.
  - unfold WIRE_SIZES. simpl.
    repeat constructor; simpl; intuition discriminate.
  - repeat constructor.
Qed.

(** For every size, the ampacity grows strictly with the temperature
    rating: 60 C < 75 C < 90 C. *)
Theorem ampacity_increases_with_rating (s : string) :
  In s WIRE_SIZES ->
  exists a60 a75 a90,
    copper_lookup (Some s) (Some "60") = Some a60 /\
    copper_lookup (Some s) (Some "75") = Some a75 /\
    copper_lookup (Some s) (Some "90") = Some a90 /\
    a60 < a75 < a90.
Proof.
  intro Hs. simpl in Hs.
  repeat (destruct Hs as [<- | Hs]); try contradiction;
    do 3 eexists; (split; [reflexivity | split; [reflexivity | split; [reflexivity | lia]]]).
Qed.

Lemma tables_sorted_check_true : tables_sorted_check = true.
Proof. vm_compute. reflexivity. Qed.

(** A size later in [WIRE_SIZES] has, at every temperature rating, a
    strictly larger ampacity and a strictly larger diameter. *)
Theorem tables_increase_with_size (n m : nat) (s1 s2 t : string) :
  (n < m)%nat ->
  nth_error WIRE_SIZES n = Some s1 ->
  nth_error WIRE_SIZES m = Some s2 ->
  In t TEMP_RATINGS ->
  (exists a1 a2, copper_lookup (Some s1) (Some t) = Some a1 /\
     copper_lookup (Some s2) (Some t) = Some a2 /\ a1 < a2) /\
  (exists d1 d2, diameter_lookup (Some s1) = Some d1 /\
     diameter_lookup (Some s2) = Some d2 /\
     ext_compare (float_value d1) (float_value d2) = Some Lt).
Proof.
  intros Hnm H1 H2 Ht.
  assert (Hm : (m < List.length WIRE_SIZES)%nat)
    by (apply nth_error_Some; congruence).
  assert (Hchk := tables_sorted_check_true).
  unfold tables_sorted_check in Hchk.
  rewrite forallb_forall in Hchk.
  specialize (Hchk n ltac:(apply in_seq; lia)).
  rewrite forallb_forall in Hchk.
  specialize (Hchk m ltac:(apply in_seq; lia)).
  rewrite forallb_forall in Hchk.
  specialize (Hchk t Ht).
  rewrite H1, H2 in Hchk.
  apply Nat.ltb_lt in Hnm. rewrite Hnm in Hchk. simpl in Hchk.
  unfold size_order_ok in Hchk.
  destruct (copper_lookup (Some s1) (Some t)) as [a1|]; [|discriminate].
  destruct (copper_lookup (Some s2) (Some t)) as [a2|]; [|discriminate].
  destruct (diameter_lookup (Some s1)) as [d1|]; [|discriminate].
  destruct (diameter_lookup (Some s2)) as [d2|]; [|discriminate].
  apply andb_true_iff in Hchk. destruct Hchk as [Ha Hd].
  split.
  - exists a1, a2. repeat split. apply Z.ltb_lt. exact Ha.
  - exists d1, d2. repeat split.
    destruct (ext_compare (float_value d1) (float_value d2)) as [[| |]|];
      try discriminate; reflexivity.
Qed.

(** When a selection changes, the phase callback and the ground callback
    compute the same diameter for the same size. *)
Theorem phase_ground_diameter_agree (size temp : selection)
    (current_amp current_diam : pyval) :
  snd (update_phase_specs true size temp current_amp current_diam)
  = update_ground_specs size current_diam.
Proof. reflexivity. Qed.

(** Running a lookup callback again on its own result changes nothing. *)
Theorem lookup_callbacks_idempotent (triggered : bool) (size temp : selection)
    (current_amp current_diam : pyval) :
  update_phase_specs triggered size temp
    (fst (update_phase_specs triggered size temp current_amp current_diam))
    (snd (update_phase_specs triggered size temp current_amp current_diam))
  = update_phase_specs triggered size temp current_amp current_diam /\
  update_ground_specs size (update_ground_specs size current_diam)
  = update_ground_specs size current_diam.
Proof.
  unfold update_phase_specs, update_ground_specs.
  destruct triggered, (copper_lookup size temp), (diameter_lookup size);
    split; reflexivity.
Qed.

Lemma ext_gt_trans (a b c : extended) :
  ext_compare a b = Some Gt ->
  (ext_compare c b = Some Lt \/ ext_compare c b = Some Eq) ->
  ext_compare a c = Some Gt.
Proof.
  intros Hab Hcb.
  destruct a as [x| | |], b as [y| | |], c as [z| | |]; simpl in *;
    try discriminate; try (destruct Hcb; discriminate); try reflexivity.
  injection Hab as Hab. apply Qgt_alt in Hab.
  f_equal. apply Qgt_alt.
  destruct Hcb as [Hcb | Hcb]; injection Hcb as Hcb.
  - apply Qlt_alt in Hcb. exact (Qlt_trans _ _ _ Hcb Hab).
  - apply Qeq_alt in Hcb. rewrite Hcb. exact Hab.
Qed.

Lemma py_compare_Ok_inv (x y : pyval) (c : option comparison) :
  py_compare x y = Ok c ->
  exists a b, value x = Some a /\ value y = Some b /\ ext_compare a b = c.
Proof.
  unfold py_compare. destruct (value x), (value y); try discriminate.
  intro H. injection H as <-. eauto.
Qed.

Lemma calculate_all_computed (i : SizingInput) (out : list outval) :
  inputs_present i = true -> calculate_all i = Ok out ->
  exists r, calculations i = Ok r /\ ui_formatting i r = Ok out.
Proof.
  intros Hp H. unfold calculate_all in H. rewrite Hp in H. simpl in H.
  unbind H. eauto.
Qed.

Lemma ui_formatting_shape (i : SizingInput) (r : SizingResult) (out : list outval) :
  ui_formatting i r = Ok out ->
  exists amp_text fill_text amp_display tpa_text tga_text tfa_text fp_text,
    out =
    [ OStr (amp_display ++ " A");
      OStr ("display-4 fw-bold text-center my-3 "
              ++ (if is_ampacity_safe r then "text-success" else "text-danger"));
      OStr ("Base (" ++ py_str (base_ampacity i) ++ "A) × Parallel ("
              ++ py_str (parallel i) ++ ") × Corr (" ++ py_str (temp_corr i) ++ ")");
      OStr ("mb-4 shadow-sm " ++ border_classes
              ++ (if is_ampacity_safe r then "border-success" else "border-danger"));
      OStr (tpa_text ++ " in²");
      OStr (tga_text ++ " in²");
      OStr (tfa_text ++ " in²");
      OStr (fp_text ++ "%");
      OStr ("display-4 fw-bold text-center my-2 "
              ++ (if is_fill_safe r then "text-success" else "text-danger"));
      OStr ("shadow-sm " ++ border_classes
              ++ (if is_fill_safe r then "border-success" else "border-danger"));
      OComp (Alert
        [H5 (if is_ampacity_safe r then "Ampacity Check: PASS" else "Ampacity Check: FAIL")
            "alert-heading";
         Pg ("Calculated (" ++ amp_text ++ " A) > OCPD (" ++ py_str (ocpd i) ++ " A)")]
        (if is_ampacity_safe r then "success" else "danger"));
      OComp (Alert
        [H5 (if is_fill_safe r then "Wireway Fill: PASS" else "Wireway Fill: FAIL")
            "alert-heading";
         Pg ("Fill (" ++ fill_text ++ "%) is "
               ++ (if is_fill_safe r then "within" else "exceeds") ++ " 20% limit")]
        (if is_fill_safe r then "success" else "danger")) ] /\
    py_format_fixed 1 (calculated_ampacity r) = Ok amp_text /\
    amp_display = amp_text.
Proof.
  unfold ui_formatting. intro H. unbind H.
  injection H as <-.
  rewrite Hv in Hv1. injection Hv1 as <-.
  do 7 eexists. split; [reflexivity|]. split; [exact Hv | reflexivity].
Qed.

(** On the computing path [calculate_all] returns one value for each of
    the twelve declared outputs. *)
Theorem computed_outputs_match_declared (i : SizingInput) (out : list outval) :
  inputs_present i = true -> calculate_all i = Ok out ->
  List.length out = List.length calculate_all_outputs.
Proof.
  intros Hp H.
  destruct (calculate_all_computed i out Hp H) as [r [_ Hu]].
  destruct (ui_formatting_shape i r out Hu) as [? [? [? [? [? [? [? [-> _]]]]]]]].
  reflexivity.
Qed.

(** The placeholder list is returned exactly when the guard of line 280
    fails: a computed result is never the placeholder. *)
Theorem placeholder_iff_guard_fails (i : SizingInput) :
  calculate_all i = Ok undetermined <-> inputs_present i = false.
Proof.
  split.
  - intro H. destruct (inputs_present i) eqn:Hp; [|reflexivity].
    pose proof (computed_outputs_match_declared i undetermined Hp H) as Hl.
    discriminate Hl.
  - intro Hp. unfold calculate_all. rewrite Hp. reflexivity.
Qed.

(** A snapshot that passes the guard but has [temp_corr] or [ground_qty]
    empty never produces outputs: the callback raises. *)
Theorem unguarded_none_raises (i : SizingInput) :
  inputs_present i = true ->
  temp_corr i = PNone \/ ground_qty i = PNone ->
  forall out, calculate_all i <> Ok out.
Proof.
  intros Hp Hn out H.
  destruct (calculate_all_computed i out Hp H) as [r [Hc _]].
  destruct (calculations_Ok i r Hc)
    as [[ba_par [_ Hca]] [_ [_ [_ [_ [_ [Htg _]]]]]]].
  destruct Hn as [Hn | Hn]; rewrite Hn in *.
  - destruct ba_par; discriminate Hca.
  - discriminate Htg.
Qed.

(** The ampacity result depends only on [base_ampacity], [parallel],
    [temp_corr] and [ocpd]: the wireway inputs never change it. *)
Theorem ampacity_check_ignores_fill_inputs (i j : SizingInput) (ri rj : SizingResult) :
  base_ampacity i = base_ampacity j -> parallel i = parallel j ->
  temp_corr i = temp_corr j -> ocpd i = ocpd j ->
  calculations i = Ok ri -> calculations j = Ok rj ->
  calculated_ampacity ri = calculated_ampacity rj /\
  is_ampacity_safe ri = is_ampacity_safe rj.
Proof.
  intros Hb Hp Ht Ho Hi Hj.
  destruct (calculations_Ok i ri Hi) as [[bi [Hbi Hci]] [Hgi _]].
  destruct (calculations_Ok j rj Hj) as [[bj [Hbj Hcj]] [Hgj _]].
  rewrite Hb, Hp in Hbi. rewrite Hbi in Hbj. injection Hbj as <-.
  rewrite Ht in Hci. rewrite Hci in Hcj. injection Hcj as Hca.
  split; [exact Hca|].
  rewrite Hca, Ho in Hgi. rewrite Hgi in Hgj. injection Hgj as Hs. exact Hs.
Qed.

(** The wireway fill results depend only on [parallel], [num_wireways],
    the two diameters, [ground_qty] and [wireway_area]: the ampacity inputs
    never change them. *)
Theorem fill_check_ignores_ampacity_inputs (i j : SizingInput) (ri rj : SizingResult) :
  parallel i = parallel j -> num_wireways i = num_wireways j ->
  phase_diam i = phase_diam j -> ground_diam i = ground_diam j ->
  ground_qty i = ground_qty j -> wireway_area i = wireway_area j ->
  calculations i = Ok ri -> calculations j = Ok rj ->
  total_phase_area ri = total_phase_area rj /\
  total_ground_area ri = total_ground_area rj /\
  total_fill_area ri = total_fill_area rj /\
  fill_percentage ri = fill_percentage rj /\
  is_fill_safe ri = is_fill_safe rj.
Proof.
  intros Hp Hn Hpd Hgd Hq Hw Hi Hj.
  destruct (calculations_Ok i ri Hi)
    as [_ [_ [[wi [Hwi Hci]] [Hpai [Hgai [Htpi [Htgi [Htfi [[qi [Hqi Hfpi]] Hlei]]]]]]]]].
  destruct (calculations_Ok j rj Hj)
    as [_ [_ [[wj [Hwj Hcj]] [Hpaj [Hgaj [Htpj [Htgj [Htfj [[qj [Hqj Hfpj]] Hlej]]]]]]]]].
  rewrite Hp, Hn in Hwi. rewrite Hpd in Hpai. rewrite Hgd in Hgai.
  rewrite Hq in Htgi. rewrite Hw in Hqi.
  assert (Ew : wi = wj) by congruence. subst wj.
  assert (Ec : conductors_in_raceway ri = conductors_in_raceway rj) by congruence.
  assert (Ep : phase_area ri = phase_area rj) by congruence.
  assert (Eg : ground_area ri = ground_area rj) by congruence.
  rewrite Ec, Ep in Htpi. rewrite Eg in Htgi.
  assert (Etp : total_phase_area ri = total_phase_area rj) by congruence.
  assert (Etg : total_ground_area ri = total_ground_area rj) by congruence.
  rewrite Etp, Etg in Htfi.
  assert (Etf : total_fill_area ri = total_fill_area rj) by congruence.
  rewrite Etf in Hqi.
  assert (Eq : qi = qj) by congruence. subst qj.
  assert (Efp : fill_percentage ri = fill_percentage rj) by congruence.
  rewrite Efp in Hlei.
  assert (Es : is_fill_safe ri = is_fill_safe rj) by congruence.
  repeat split; assumption.
Qed.

(** Lowering the OCPD trip setting (or keeping it) never turns a passing
    ampacity check into a failing one. *)
Theorem lower_ocpd_keeps_pass (i : SizingInput) (o : pyval) (r r' : SizingResult) :
  calculations i = Ok r ->
  calculations (with_ocpd i o) = Ok r' ->
  py_compare o (ocpd i) = Ok (Some Lt) \/ py_compare o (ocpd i) = Ok (Some Eq) ->
  is_ampacity_safe r = true -> is_ampacity_safe r' = true.
Proof.
  intros Hc Hc' Ho Hs.
  destruct (calculations_Ok i r Hc) as [[b [Hb Hca]] [Hg _]].
  destruct (calculations_Ok (with_ocpd i o) r' Hc') as [[b' [Hb' Hca']] [Hg' _]].
  simpl in Hb', Hca', Hg'.
  rewrite Hb in Hb'. injection Hb' as <-.
  rewrite Hca in Hca'. injection Hca' as Heq. rewrite <- Heq in Hg'.
  apply (py_gt_Ok _ _ _ Hg) in Hs.
  apply (py_gt_Ok _ _ _ Hg').
  destruct (py_compare_Ok_inv _ _ _ Hs) as [a [b0 [Ha [Hb0 Hab]]]].
  assert (Hcb : exists c, value o = Some c /\
            (ext_compare c b0 = Some Lt \/ ext_compare c b0 = Some Eq)).
  { destruct Ho as [Ho | Ho]; destruct (py_compare_Ok_inv _ _ _ Ho) as [c [b1 [Hc1 [Hb1 Hcb]]]];
      rewrite Hb0 in Hb1; injection Hb1 as <-; eauto. }
  destruct Hcb as [c [Hc1 Hcb]].
  unfold py_compare. rewrite Ha, Hc1. f_equal.
  exact (ext_gt_trans a b0 c Hab Hcb).
Qed.

(** End to end: when [calculate_all] computes, the ampacity banner (output
    11) is a green "Ampacity Check: PASS" exactly when the calculated
    ampacity is strictly greater than the OCPD setting, and the fill banner
    (output 12) is a green "Wireway Fill: PASS" exactly when the fill
    percentage is at most 20. *)
Theorem banners_report_checks (i : SizingInput) (out : list outval) :
  inputs_present i = true -> calculate_all i = Ok out ->
  exists r, calculations i = Ok r /\
  ((exists rest, nth_error out 10 =
      Some (OComp (Alert (H5 "Ampacity Check: PASS" "alert-heading" :: rest) "success")))
   <-> py_compare (calculated_ampacity r) (ocpd i) = Ok (Some Gt)) /\
  ((exists rest, nth_error out 11 =
      Some (OComp (Alert (H5 "Wireway Fill: PASS" "alert-heading" :: rest) "success")))
   <-> py_compare (fill_percentage r) (PInt 20) = Ok (Some Lt) \/
       py_compare (fill_percentage r) (PInt 20) = Ok (Some Eq)).
Proof.
  intros Hp H.
  destruct (calculate_all_computed i out Hp H) as [r [Hc Hu]].
  exists r. split; [exact Hc|].
  destruct (calculations_Ok i r Hc) as [_ [Hg [_ [_ [_ [_ [_ [_ [_ Hle]]]]]]]]].
  pose proof (py_gt_Ok _ _ _ Hg) as Hgi.
  pose proof (py_le_Ok _ _ _ Hle) as Hli.
  destruct (ui_formatting_shape i r out Hu) as [? [? [? [? [? [? [? [-> _]]]]]]]].
  simpl. rewrite <- Hgi, <- Hli.
  split; [destruct (is_ampacity_safe r) | destruct (is_fill_safe r)];
    split; intro Hx; eauto;
    first [discriminate Hx | destruct Hx as [rest Hx]; discriminate Hx].
Qed.

(** The ampacity banner always reads "Calculated (x A) > OCPD (y A)", with
    [x] the same text as the main ampacity display: on a failing check it
    still prints [>]. *)
Theorem ampacity_banner_always_says_greater (i : SizingInput) (out : list outval) :
  inputs_present i = true -> calculate_all i = Ok out ->
  exists x heading color,
    nth_error out 0 = Some (OStr (x ++ " A")) /\
    nth_error out 10 =
      Some (OComp (Alert [heading;
                          Pg ("Calculated (" ++ x ++ " A) > OCPD (" ++ py_str (ocpd i) ++ " A)")]
                         color)).
Proof.
  intros Hp H.
  destruct (calculate_all_computed i out Hp H) as [r [_ Hu]].
  destruct (ui_formatting_shape i r out Hu)
    as [amp_text [? [amp_display [? [? [? [? [-> [_ ->]]]]]]]]].
  do 3 eexists. split; reflexivity.
Qed.

(** ** Witnesses of the further properties *)

Lemma ampacity_increases_with_rating_witness :
  exists a60 a75 a90,
    copper_lookup (Some "750") (Some "60") = Some a60 /\
    copper_lookup (Some "750") (Some "75") = Some a75 /\
    copper_lookup (Some "750") (Some "90") = Some a90 /\
    a60 < a75 < a90.
Proof.
  apply ampacity_increases_with_rating. simpl. tauto.
Defined.

Lemma tables_increase_with_size_witness :
  (exists a1 a2, copper_lookup (Some "14") (Some "90") = Some a1 /\
     copper_lookup (Some "1000") (Some "90") = Some a2 /\ a1 < a2) /\
  (exists d1 d2, diameter_lookup (Some "14") = Some d1 /\
     diameter_lookup (Some "1000") = Some d2 /\
     ext_compare (float_value d1) (float_value d2) = Some Lt).
Proof.
  apply (tables_increase_with_size 0 23); [lia | reflexivity | reflexivity | simpl; tauto].
Defined.

Lemma computed_outputs_match_declared_witness :
  List.length (outputs_of default_input) = List.length calculate_all_outputs.
Proof.
  apply (computed_outputs_match_declared default_input);
    vm_compute; reflexivity.
Defined.

Lemma placeholder_iff_guard_fails_witness :
  calculate_all (with_fla default_input PNone) = Ok undetermined.
Proof.
  apply (placeholder_iff_guard_fails (with_fla default_input PNone)).
  reflexivity.
Defined.

Lemma unguarded_none_raises_witness :
  calculate_all (with_ground_qty default_input PNone) <> Ok [].
Proof.
  apply (unguarded_none_raises (with_ground_qty default_input PNone));
    [vm_compute; reflexivity | right; reflexivity].
Defined.

Lemma ampacity_check_ignores_fill_inputs_witness :
  calculated_ampacity default_result
    = calculated_ampacity (result_of (with_ground_qty default_input (PInt 2))) /\
  is_ampacity_safe default_result
    = is_ampacity_safe (result_of (with_ground_qty default_input (PInt 2))).
Proof.
  apply (ampacity_check_ignores_fill_inputs default_input
           (with_ground_qty default_input (PInt 2)));
    vm_compute; reflexivity.
Defined.

Lemma fill_check_ignores_ampacity_inputs_witness :
  total_phase_area default_result = total_phase_area (result_of (with_ocpd default_input (PInt 4000))) /\
  total_ground_area default_result = total_ground_area (result_of (with_ocpd default_input (PInt 4000))) /\
  total_fill_area default_result = total_fill_area (result_of (with_ocpd default_input (PInt 4000))) /\
  fill_percentage default_result = fill_percentage (result_of (with_ocpd default_input (PInt 4000))) /\
  is_fill_safe default_result = is_fill_safe (result_of (with_ocpd default_input (PInt 4000))).
Proof.
  apply (fill_check_ignores_ampacity_inputs default_input
           (with_ocpd default_input (PInt 4000)));
    vm_compute; reflexivity.
Defined.

Lemma lower_ocpd_keeps_pass_witness :
  is_ampacity_safe (result_of (with_ocpd default_input (PInt 2000))) = true.
Proof.
  apply (lower_ocpd_keeps_pass default_input (PInt 2000) default_result);
    [vm_compute; reflexivity | vm_compute; reflexivity | left; vm_compute; reflexivity
    | reflexivity].
Defined.

Lemma banners_report_checks_witness :
  exists r, calculations default_input = Ok r /\
  ((exists rest, nth_error (outputs_of default_input) 10 =
      Some (OComp (Alert (H5 "Ampacity Check: PASS" "alert-heading" :: rest) "success")))
   <-> py_compare (calculated_ampacity r) (ocpd default_input) = Ok (Some Gt)) /\
  ((exists rest, nth_error (outputs_of default_input) 11 =
      Some (OComp (Alert (H5 "Wireway Fill: PASS" "alert-heading" :: rest) "success")))
   <-> py_compare (fill_percentage r) (PInt 20) = Ok (Some Lt) \/
       py_compare (fill_percentage r) (PInt 20) = Ok (Some Eq)).
Proof.
  apply banners_report_checks; vm_compute; reflexivity.
Defined.

Lemma ampacity_banner_always_says_greater_witness :
  exists x heading color,
    nth_error (outputs_of (with_ocpd default_input (PInt 4000))) 0 = Some (OStr (x ++ " A")) /\
    nth_error (outputs_of (with_ocpd default_input (PInt 4000))) 10 =
      Some (OComp (Alert [heading;
                          Pg ("Calculated (" ++ x ++ " A) > OCPD ("
                                ++ py_str (ocpd (with_ocpd default_input (PInt 4000))) ++ " A)")]
                         color)).
Proof.
  apply ampacity_banner_always_says_greater; vm_compute; reflexivity.
Defined.
